(** * The Django adapter of the unittest test explorer

    A shallow embedding of [python_files/unittestadapter/django_handler.py]:
    the context manager [override_argv] and the two entry points
    [django_discovery_runner] and [django_execution_runner].

    The Python code is glue around effects: it reads and writes [sys.argv],
    [sys.path] and the standard streams, copies [os.environ], launches a
    child process, loads [manage.py] as a module and calls its [main].
    The embedding therefore is a small monad of its own: a computation takes
    the process-global state (a [World]) and yields a result or a raised
    exception, the new world, and the list of the calls it made into foreign
    code (an [Event] log).  Foreign code (the child process, the import
    machinery, the body of [manage.py]) is a parameter: a [Host].

    What the embedding takes for granted: [print], [os.environ.copy],
    [os.fspath] and [pathlib.Path.parent] return; what can raise is the
    check [pathlib.Path.exists], the three calls into foreign code
    ([subprocess.run], [spec_from_file_location], and the creation and
    execution of the module) and the call of [main].  Foreign code that
    does not return at all is outside the model. *)

From stdpp Require Import gmap strings list.

Open Scope string_scope.
Open Scope list_scope.

(** ** Exceptions *)

Module Py.

(** The classes of the exceptions that matter to the handlers of the file.
    [UserClass] is a class declared elsewhere with one base class,
    [MultiClass] one declared with several, as in
    [class Both(SystemExit, Exception)]. *)
#[warnings="-register-all"]
Inductive exn_class : Type :=
| BaseException
| Exception
| SystemExit
| KeyboardInterrupt
| GeneratorExit
| VSCodeUnittestError
| AttributeError
| UserClass (name : string) (base : exn_class)
| MultiClass (name : string) (bases : list exn_class).

#[global] Instance exn_class_eq_dec : EqDecision exn_class.
Proof.
  unfold EqDecision, Decision. fix go 1.
  decide equality;
    first [apply String.string_dec | apply (List.list_eq_dec go)].
Defined.

(** Modelled from the spec: the class declaration of [VSCodeUnittestError]
    lives in [pvsc_utils], which is imported but is not part of the adapter
    file.  The spec calls it a domain-specific error that the runners raise
    and that callers receive; it is taken as an ordinary error class, that is
    a direct subclass of [Exception].  The other lines are Python's built-in
    hierarchy.  [mro c] lists the class and all its ancestors, which is what
    [issubclass] looks at; for a class with several bases the order is not
    that of Python's linearisation and a common ancestor is listed more than
    once. *)
Fixpoint mro (c : exn_class) : list exn_class :=
  c :: match c with
       | BaseException => []
       | Exception | SystemExit | KeyboardInterrupt | GeneratorExit =>
           [BaseException]
       | VSCodeUnittestError | AttributeError => [Exception; BaseException]
       | UserClass _ base => mro base
       | MultiClass _ bases =>
           (fix all (l : list exn_class) : list exn_class :=
              match l with
              | [] => []
              | b :: l' => mro b ++ all l'
              end) bases
       end.

Definition issubclass (c d : exn_class) : bool := bool_decide (d ∈ mro c).

(** An exception object: its class, the text [str(e)] gives, and the
    exception that was being handled when it was raised ([__context__]). *)
#[warnings="-register-all"]
Inductive exn : Type :=
| Exn (cls : exn_class) (msg : string) (context : option exn).

Definition class_of (e : exn) : exn_class := let 'Exn c _ _ := e in c.
Definition str (e : exn) : string := let 'Exn _ m _ := e in m.
Definition context_of (e : exn) : option exn := let 'Exn _ _ c := e in c.

Definition isinstance (e : exn) (c : exn_class) : bool :=
  issubclass (class_of e) c.

(** The outcome of a call: a value, or an exception on its way up. *)
Inductive Res (A : Type) : Type :=
| Ok (a : A)
| Raise (e : exn).
Arguments Ok {A} a.
Arguments Raise {A} e.

End Py.
Import Py.

(** ** Process-global state *)

Record World : Type := mkWorld {
  sys_argv : list string;
  sys_path : list string;
  os_environ : gmap string string;
  stdout : list string;
  stderr : list string;
}.

Definition set_sys_argv (argv : list string) (w : World) : World :=
  mkWorld argv (sys_path w) (os_environ w) (stdout w) (stderr w).

(** [sys.path.insert(0, p)] *)
Definition sys_path_insert0 (p : string) (w : World) : World :=
  mkWorld (sys_argv w) (p :: sys_path w) (os_environ w) (stdout w) (stderr w).

(** [print(s, file=sys.stdout)] and [print(s, file=sys.stderr)]: one more
    line at the end of the stream. *)
Definition write_stdout (s : string) (w : World) : World :=
  mkWorld (sys_argv w) (sys_path w) (os_environ w) (stdout w ++ [s]) (stderr w).

Definition write_stderr (s : string) (w : World) : World :=
  mkWorld (sys_argv w) (sys_path w) (os_environ w) (stdout w) (stderr w ++ [s]).

(** ** Foreign code *)

(** Code the adapter calls and does not own runs on the world and may do
    anything to it, return or raise. *)
Definition Code (A : Type) : Type := World -> Res A * World.

(** The module object of [manage.py] once executed: its attribute [main],
    if it defines one. *)
Record Module : Type := mkModule { main : option (Code unit) }.

(** A loader.  [exec_module] stands for the two statements
    [manage_module = importlib.util.module_from_spec(manage_spec)] and
    [manage_spec.loader.exec_module(manage_module)]: it runs the top level
    of [manage.py] and yields the module, or raises. *)
Record Loader : Type := mkLoader { exec_module : Code Module }.

Record ModuleSpec : Type := mkModuleSpec { loader : option Loader }.

(** What [subprocess.run(..., capture_output=True, text=True)] returns. *)
Record CompletedProcess : Type := mkCompletedProcess {
  returncode : Z;
  cp_stdout : string;
  cp_stderr : string;
}.

(** The interpreter and the machine the adapter runs on. *)
Record Host : Type := mkHost {
  (** [pathlib.Path(p).exists()]: [True], [False], or an exception.  The
      method answers [False] for a missing entry and (before Python 3.14)
      lets other failures of the underlying [stat] through: an [OSError] for
      a name that is too long for the filesystem, or for a directory that
      may not be searched. *)
  path_exists : string -> Res bool;
  (** [os.fspath(pathlib.Path(__file__).parent)] *)
  script_dir : string;
  (** [os.fspath(pathlib.Path(p).parent)] *)
  path_parent : string -> string;
  (** [os.pathsep] *)
  pathsep : string;
  (** [sys.executable] *)
  sys_executable : string;
  (** [repr] of a list of strings, as [print] and f-strings show it *)
  repr : list string -> string;
  (** [subprocess.run(command, capture_output=True, text=True, env=env)] *)
  subprocess_run : list string -> gmap string string -> Res CompletedProcess;
  (** [importlib.util.spec_from_file_location(name, location)] *)
  spec_from_file_location : string -> string -> Res (option ModuleSpec);
}.

(** ** The monad of the adapter's own code *)

(** The actions handed to foreign code, in the order they are made: the
    launch of the child, the steps of loading [manage.py], the call of its
    [main].  [EvMain] carries the value of [sys.argv] at the moment [main]
    is entered. *)
Inductive Event : Type :=
| EvRun (command : list string) (env : gmap string string)
| EvSpecFromFile (name location : string)
| EvExecModule
| EvMain (argv : list string).

Definition M (A : Type) : Type := World -> Res A * World * list Event.

#[global] Instance M_ret : MRet M := λ A a w, (Ok a, w, []).

#[global] Instance M_bind : MBind M := λ A B f m w,
  match m w with
  | (Ok a, w1, t1) => let '(r, w2, t2) := f a w1 in (r, w2, t1 ++ t2)
  | (Raise e, w1, t1) => (Raise e, w1, t1)
  end.

Definition raise {A : Type} (e : exn) : M A := λ w, (Raise e, w, []).

(** A statement that only changes the world. *)
Definition modify (f : World -> World) : M unit := λ w, (Ok tt, f w, []).

Definition gets {A : Type} (f : World -> A) : M A := λ w, (Ok (f w), w, []).

(** A question put to the host that changes nothing and is no action: it
    has an answer, or raises. *)
Definition query {A : Type} (r : Res A) : M A := λ w, (r, w, []).

(** A call of a foreign function that only yields a result. *)
Definition extern {A : Type} (ev : Event) (r : Res A) : M A := λ w, (r, w, [ev]).

(** A call of foreign code that runs on the world. *)
Definition call {A : Type} (ev : World -> Event) (c : Code A) : M A :=
  λ w, let '(r, w1) := c w in (r, w1, [ev w]).

(** [try: body / except cls as e: handler e] *)
Definition try_except {A : Type} (body : M A) (cls : exn_class)
    (handler : exn -> M A) : M A := λ w,
  match body w with
  | (Raise e, w1, t1) =>
      if isinstance e cls
      then let '(r, w2, t2) := handler e w1 in (r, w2, t1 ++ t2)
      else (Raise e, w1, t1)
  | ok => ok
  end.

(** [try: body / finally: cleanup] *)
Definition try_finally {A : Type} (body : M A) (cleanup : M unit) : M A := λ w,
  let '(r, w1, t1) := body w in
  match cleanup w1 with
  | (Ok _, w2, t2) => (r, w2, t1 ++ t2)
  | (Raise e, w2, t2) => (Raise e, w2, t1 ++ t2)
  end.

(** [contextlib.suppress(cls)] around a block. *)
Definition suppress (cls : exn_class) (body : M unit) : M unit := λ w,
  match body w with
  | (Raise e, w1, t1) =>
      if isinstance e cls then (Ok tt, w1, t1) else (Raise e, w1, t1)
  | ok => ok
  end.

(** ** The adapter *)

(** [with override_argv(argv): body] *)
Definition override_argv {A : Type} (argv : list string) (body : M A) : M A :=
  original_argv ← gets sys_argv;
  modify (set_sys_argv argv);;
  try_finally body (modify (set_sys_argv original_argv)).

(** The [if "PYTHONPATH" in env: ... else: ...] of both runners. *)
Definition prepend_pythonpath (dir sep : string) (env : gmap string string)
    : gmap string string :=
  match env !! "PYTHONPATH" with
  | Some old => <["PYTHONPATH" := dir +:+ sep +:+ old]> env
  | None => <["PYTHONPATH" := dir]> env
  end.

Definition missing_manage_py : exn :=
  Exn VSCodeUnittestError
      "Error running Django, manage.py path does not exist." None.

Definition discovery_error_msg : string :=
  "Django test discovery process exited with non-zero error code See stderr above for more details.".

Definition discovery_command (H : Host) (manage_py_path : string)
    (args : list string) : list string :=
  [sys_executable H; manage_py_path; "test";
   "--testrunner=django_test_runner.CustomDiscoveryTestRunner"] ++ args.

(** The body of the [try] of [django_discovery_runner]. *)
Definition discovery_try_body (H : Host) (manage_py_path : string)
    (args : list string) : M unit :=
  let custom_test_runner_dir := script_dir H in
  modify (sys_path_insert0 custom_test_runner_dir);;
  env ← gets os_environ;
  let env := prepend_pythonpath custom_test_runner_dir (pathsep H) env in
  let command := discovery_command H manage_py_path args in
  modify (write_stdout
            ("Running Django tests with command:" +:+ " " +:+ repr H command));;
  subprocess_discovery ←
    extern (EvRun command env) (subprocess_run H command env);
  modify (write_stderr (cp_stderr subprocess_discovery));;
  modify (write_stdout (cp_stdout subprocess_discovery));;
  if negb (bool_decide (returncode subprocess_discovery ∈ [0; 1]%Z))
  then modify (write_stderr discovery_error_msg)
  else mret tt.

Definition django_discovery_runner (H : Host) (manage_py_path : string)
    (args : list string) : M unit :=
  found ← query (path_exists H manage_py_path);
  if negb found then raise missing_manage_py
  else
    try_except (discovery_try_body H manage_py_path args) Exception
      (λ e, raise (Exn VSCodeUnittestError
                       ("Error during Django discovery: " +:+ str e) (Some e))).

Definition import_error : exn :=
  Exn VSCodeUnittestError
      "Error importing manage.py when running Django testing." None.

Definition execution_argv (manage_py_path : string)
    (args test_ids : list string) : list string :=
  [manage_py_path; "test";
   "--testrunner=django_test_runner.CustomExecutionTestRunner"]
    ++ args ++ test_ids.

(** [manage_module.main()]: the attribute is looked up, then called.  A
    module without [main] raises [AttributeError]. *)
Definition call_main (manage_module : Module) : M unit :=
  match main manage_module with
  | Some f => call (λ w, EvMain (sys_argv w)) f
  | None =>
      raise (Exn AttributeError "module 'manage' has no attribute 'main'" None)
  end.

(** The statements of the [try] of [django_execution_runner] that follow the
    [if manage_spec is None or manage_spec.loader is None] test. *)
Definition execution_run_manage (H : Host) (manage_py_path : string)
    (test_ids args : list string) (manage_loader : Loader) : M unit :=
  manage_module ← call (λ _, EvExecModule) (exec_module manage_loader);
  let manage_argv := execution_argv manage_py_path args test_ids in
  modify (write_stdout ("Django manage.py arguments: " +:+ repr H manage_argv));;
  override_argv manage_argv (suppress SystemExit (call_main manage_module)).

(** The body of the [try] of [django_execution_runner].  The copy of the
    environment is built as in the source and, as in the source, not used. *)
Definition execution_try_body (H : Host) (manage_py_path : string)
    (test_ids args : list string) : M unit :=
  let custom_test_runner_dir := script_dir H in
  modify (sys_path_insert0 custom_test_runner_dir);;
  env ← gets os_environ;
  let env := prepend_pythonpath custom_test_runner_dir (pathsep H) env in
  let django_project_dir := path_parent H manage_py_path in
  modify (sys_path_insert0 django_project_dir);;
  modify (write_stdout ("Django project directory: " +:+ django_project_dir));;
  manage_spec ←
    extern (EvSpecFromFile "manage" manage_py_path)
           (spec_from_file_location H "manage" manage_py_path);
  match manage_spec with
  | None => raise import_error
  | Some spec =>
      match loader spec with
      | None => raise import_error
      | Some manage_loader =>
          execution_run_manage H manage_py_path test_ids args manage_loader
      end
  end.

Definition django_execution_runner (H : Host) (manage_py_path : string)
    (test_ids args : list string) : M unit :=
  found ← query (path_exists H manage_py_path);
  if negb found then raise missing_manage_py
  else
    try_except (execution_try_body H manage_py_path test_ids args) Exception
      (λ e, modify (write_stderr
                      ("Error during Django test execution: " +:+ str e))).

(** ** Sample hosts, for running the model *)

Definition sample_world : World :=
  mkWorld ["execution.py"; "--udiscovery"] ["/ext/python_files"]
          {[ "HOME" := "/home/dev" ]} [] [].

Definition sample_repr (l : list string) : string :=
  "[" +:+ String.concat ", " l +:+ "]".

(** A path that names nothing and has a component of 256 characters, one
    more than the filesystem accepts. *)
Definition long_name_path : string :=
  "/proj/" +:+ String.concat "" (replicate 256 "a") +:+ "/manage.py".

Definition name_too_long : exn :=
  Exn (UserClass "OSError" Exception) "[Errno 36] File name too long" None.

(** The filesystem of the sample hosts: a project at [/proj/manage.py] and
    nothing else; the over-long name makes [stat] fail. *)
Definition sample_exists (p : string) : Res bool :=
  if bool_decide (p = "/proj/manage.py") then Ok true
  else if bool_decide (p = long_name_path) then Raise name_too_long
  else Ok false.

(** A host with a project at [/proj/manage.py] whose child process exits
    with [rc], and whose [manage.py] is loaded by [ld] (if any). *)
Definition sample_host (run : Res CompletedProcess)
    (spec : Res (option ModuleSpec)) : Host :=
  mkHost sample_exists
         "/ext/python_files/unittestadapter"
         (λ _, "/proj") ":" "/usr/bin/python3" sample_repr
         (λ _ _, run) (λ _ _, spec).

Definition exited (rc : Z) : Res CompletedProcess :=
  Ok (mkCompletedProcess rc "out" "err").

(** A [manage.py] whose top level runs without effect and whose [main]
    is [f]. *)
Definition manage_with_main (f : option (Code unit))
    : Res (option ModuleSpec) :=
  Ok (Some (mkModuleSpec (Some (mkLoader (λ w, (Ok (mkModule f), w)))))).

(** A project whose child process exits with code 0 and whose [manage.py]
    has no loader. *)
Definition plain_host : Host := sample_host (exited 0) (Ok None).

(** The same project, the child exiting with code 2. *)
Definition failing_child_host : Host := sample_host (exited 2) (Ok None).

(** The user interrupts the parent while it waits for the child. *)
Definition interrupted_host : Host :=
  sample_host (Raise (Exn KeyboardInterrupt "" None)) (Ok None).

(** The child cannot be started. *)
Definition no_interpreter_host : Host :=
  sample_host (Raise (Exn (UserClass "OSError" Exception) "No such file" None))
              (Ok None).


(** A [manage.py] whose [main] ends, as Django's does, in [sys.exit]; it
    also rewrites [sys.argv] on its way. *)
Definition django_main : Code unit :=
  λ w, (Raise (Exn SystemExit "0" None), set_sys_argv ["manage.py"] w).

Definition django_host : Host :=
  sample_host (exited 0) (manage_with_main (Some django_main)).

(** A [manage.py] whose [main] is interrupted from the keyboard. *)
Definition interrupted_main_host : Host :=
  sample_host (exited 0)
    (manage_with_main (Some (λ w, (Raise (Exn KeyboardInterrupt "" None), w)))).

(** A [manage.py] whose [main] returns. *)
Definition quiet_host : Host :=
  sample_host (exited 0) (manage_with_main (Some (λ w, (Ok tt, w)))).


(** The import machinery itself fails on the file. *)
Definition unreadable_manage_host : Host :=
  sample_host (exited 0)
    (Raise (Exn (UserClass "OSError" Exception) "Permission denied" None)).





(** A [manage.py] that defines no [main]. *)
Definition no_main_host : Host :=
  sample_host (exited 0) (manage_with_main None).

(** ** Vocabulary of the statements *)

(** The world at the moment the child process of discovery is launched. *)
Definition discovery_launch_world (H : Host) (manage_py_path : string)
    (args : list string) (w : World) : World :=
  write_stdout
    ("Running Django tests with command:" +:+ " "
       +:+ repr H (discovery_command H manage_py_path args))
    (sys_path_insert0 (script_dir H) w).

(** The environment the child process is given. *)
Definition discovery_env (H : Host) (w : World) : gmap string string :=
  prepend_pythonpath (script_dir H) (pathsep H) (os_environ w).

(** What the parent does with a child that has exited. *)
Definition discovery_report (p : CompletedProcess) (w : World) : World :=
  let w1 := write_stdout (cp_stdout p) (write_stderr (cp_stderr p) w) in
  if negb (bool_decide (returncode p ∈ [0; 1]%Z))
  then write_stderr discovery_error_msg w1
  else w1.

(** The world at the moment [manage.py] is loaded. *)
Definition execution_load_world (H : Host) (manage_py_path : string)
    (w : World) : World :=
  write_stdout ("Django project directory: " +:+ path_parent H manage_py_path)
    (sys_path_insert0 (path_parent H manage_py_path)
       (sys_path_insert0 (script_dir H) w)).

(** The world just before the [with] statement, from the world [w1] that
    executing the module left. *)
Definition execution_with_world (H : Host) (manage_py_path : string)
    (test_ids args : list string) (w1 : World) : World :=
  write_stdout
    ("Django manage.py arguments: "
       +:+ repr H (execution_argv manage_py_path args test_ids)) w1.

(** The world [main] is entered with. *)
Definition execution_main_world (H : Host) (manage_py_path : string)
    (test_ids args : list string) (w1 : World) : World :=
  set_sys_argv (execution_argv manage_py_path args test_ids)
    (execution_with_world H manage_py_path test_ids args w1).

(** The outcome of the [with] statement, from the outcome of [main]. *)
Definition suppressed (r : Res unit) : Res unit :=
  match r with
  | Raise e => if isinstance e SystemExit then Ok tt else Raise e
  | Ok u => Ok u
  end.

(** The runner gets as far as the nested call: the path exists, the import
    machinery yields a spec with a loader, and executing the module from the
    world [w] returns the module [m] and leaves the world [w1]. *)
Definition reaches_main (H : Host) (manage_py_path : string)
    (w : World) (m : Module) (w1 : World) : Prop :=
  path_exists H manage_py_path = Ok true ∧
  ∃ spec ld,
    spec_from_file_location H "manage" manage_py_path = Ok (Some spec) ∧
    loader spec = Some ld ∧
    exec_module ld (execution_load_world H manage_py_path w) = (Ok m, w1).

(** Loading [manage.py] fails: no spec, or a spec without a loader. *)
Definition import_fails (H : Host) (manage_py_path : string) : Prop :=
  spec_from_file_location H "manage" manage_py_path = Ok None ∨
  ∃ spec,
    spec_from_file_location H "manage" manage_py_path = Ok (Some spec) ∧
    loader spec = None.

(** Foreign code that leaves the argument list, the import path and the
    environment as it found them. *)
Definition leaves_globals {A : Type} (c : Code A) : Prop :=
  ∀ w, sys_argv (c w).2 = sys_argv w ∧
       sys_path (c w).2 = sys_path w ∧
       os_environ (c w).2 = os_environ w.

Definition leaves_path_and_environ {A : Type} (c : Code A) : Prop :=
  ∀ w, sys_path (c w).2 = sys_path w ∧ os_environ (c w).2 = os_environ w.

(** The code of [manage.py] itself changes no global: neither its top level
    nor its [main] (which receives the overridden argument list and may
    change it). *)
Definition manage_py_leaves_globals (H : Host) (manage_py_path : string)
    : Prop :=
  ∀ spec ld,
    spec_from_file_location H "manage" manage_py_path = Ok (Some spec) →
    loader spec = Some ld →
    leaves_globals (exec_module ld) ∧
    ∀ w m f, (exec_module ld w).1 = Ok m → main m = Some f →
             leaves_path_and_environ f.

(** [n] calls of a runner in a row, as a caller that loops over it makes
    them; the loop ends at the first call that raises. *)
Fixpoint times (n : nat) (m : M unit) : M unit :=
  match n with
  | 0 => mret tt
  | S k => m;; times k m
  end.

(** ** Theorems *)

(** Unfolds the monad down to functions on worlds. *)
Ltac run_monad :=
  unfold override_argv, call_main;
  unfold try_except, try_finally, suppress,
    mbind, mret, M_bind, M_ret, raise, modify, gets, extern, call;
  cbn.

Lemma isinstance_class e c :
  isinstance e c = true ↔ c ∈ mro (class_of e).
Proof. unfold isinstance, issubclass. apply bool_decide_eq_true. Qed.

(** *** The existence check *)

(** Both runners begin with the check of the path, outside their [try]. *)
Lemma discovery_runner_checked H manage_py_path args w :
  django_discovery_runner H manage_py_path args w
  = match path_exists H manage_py_path with
    | Ok true =>
        try_except (discovery_try_body H manage_py_path args) Exception
          (λ e, raise (Exn VSCodeUnittestError
                           ("Error during Django discovery: " +:+ str e)
                           (Some e))) w
    | Ok false => (Raise missing_manage_py, w, [])
    | Raise e => (Raise e, w, [])
    end.
Proof.
  unfold django_discovery_runner, mbind, M_bind, query.
  destruct (path_exists H manage_py_path) as [[|]|e]; try reflexivity.
  cbn [negb]. by destruct (try_except _ _ _ w) as [[r w2] t2].
Qed.

Lemma execution_runner_checked H manage_py_path test_ids args w :
  django_execution_runner H manage_py_path test_ids args w
  = match path_exists H manage_py_path with
    | Ok true =>
        try_except (execution_try_body H manage_py_path test_ids args)
          Exception
          (λ e, modify (write_stderr
                          ("Error during Django test execution: " +:+ str e)))
          w
    | Ok false => (Raise missing_manage_py, w, [])
    | Raise e => (Raise e, w, [])
    end.
Proof.
  unfold django_execution_runner, mbind, M_bind, query.
  destruct (path_exists H manage_py_path) as [[|]|e]; try reflexivity.
  cbn [negb]. by destruct (try_except _ _ _ w) as [[r w2] t2].
Qed.

(** *** Discovery, step by step *)

Section Discovery.
Context (H : Host) (manage_py_path : string) (args : list string).

Lemma discovery_try_body_run w :
  discovery_try_body H manage_py_path args w
  = let command := discovery_command H manage_py_path args in
    let env := discovery_env H w in
    match subprocess_run H command env with
    | Ok p =>
        (Ok tt,
         discovery_report p (discovery_launch_world H manage_py_path args w),
         [EvRun command env])
    | Raise e =>
        (Raise e, discovery_launch_world H manage_py_path args w,
         [EvRun command env])
    end.
Proof.
  unfold discovery_try_body, discovery_report, discovery_env. run_monad.
  destruct (subprocess_run H _ _) as [p|e]; [|reflexivity].
  destruct (negb _); reflexivity.
Qed.

Lemma discovery_runner_run w :
  path_exists H manage_py_path = Ok true →
  django_discovery_runner H manage_py_path args w
  = let command := discovery_command H manage_py_path args in
    let env := discovery_env H w in
    match subprocess_run H command env with
    | Ok p =>
        (Ok tt,
         discovery_report p (discovery_launch_world H manage_py_path args w),
         [EvRun command env])
    | Raise e =>
        (Raise (if isinstance e Exception
                then Exn VSCodeUnittestError
                         ("Error during Django discovery: " +:+ str e) (Some e)
                else e),
         discovery_launch_world H manage_py_path args w, [EvRun command env])
    end.
Proof.
  intros Hex. rewrite discovery_runner_checked, Hex.
  unfold try_except. rewrite discovery_try_body_run. cbn.
  destruct (subprocess_run H _ _) as [p|e]; [reflexivity|].
  destruct (isinstance e Exception); reflexivity.
Qed.

Lemma discovery_report_globals p w :
  sys_argv (discovery_report p w) = sys_argv w ∧
  sys_path (discovery_report p w) = sys_path w ∧
  os_environ (discovery_report p w) = os_environ w.
Proof. unfold discovery_report. destruct (negb _); done. Qed.

Lemma discovery_report_stderr p w :
  stderr (discovery_report p w)
  = stderr w ++ cp_stderr p ::
      (if bool_decide (returncode p ∈ [0; 1]%Z) then []
       else [discovery_error_msg]).
Proof.
  unfold discovery_report. destruct (bool_decide _); cbn; [done|].
  by rewrite <- app_assoc.
Qed.
End Discovery.

(** *** Execution, step by step *)

Section Execution.
Context (H : Host) (manage_py_path : string) (test_ids args : list string).

Lemma override_argv_restores {A} argv (body : M A) w :
  sys_argv (override_argv argv body w).1.2 = sys_argv w.
Proof.
  run_monad. destruct (body _) as [[r w1] t1]. reflexivity.
Qed.

Lemma with_block_run m w1 :
  override_argv (execution_argv manage_py_path args test_ids) (suppress SystemExit (call_main m))
    (execution_with_world H manage_py_path test_ids args w1)
  = match main m with
    | Some f =>
        let '(r, w2) := f (execution_main_world H manage_py_path test_ids args w1) in
        (suppressed r, set_sys_argv (sys_argv w1) w2, [EvMain (execution_argv manage_py_path args test_ids)])
    | None =>
        (Raise (Exn AttributeError
                    "module 'manage' has no attribute 'main'" None),
         set_sys_argv (sys_argv w1)
           (execution_main_world H manage_py_path test_ids args w1), [])
    end.
Proof.
  run_monad. unfold execution_main_world, execution_with_world.
  destruct (main m) as [f|]; [|reflexivity].
  run_monad. destruct (f _) as [[u|e] w2]; [reflexivity|].
  cbn. destruct (isinstance e SystemExit); reflexivity.
Qed.

Lemma execution_run_manage_run ld w :
  execution_run_manage H manage_py_path test_ids args ld w
  = match exec_module ld w with
    | (Ok m, w1) =>
        let '(r, w2, t) :=
          override_argv (execution_argv manage_py_path args test_ids) (suppress SystemExit (call_main m))
            (execution_with_world H manage_py_path test_ids args w1) in
        (r, w2, EvExecModule :: t)
    | (Raise e, w1) => (Raise e, w1, [EvExecModule])
    end.
Proof.
  unfold execution_run_manage, execution_with_world.
  unfold mbind, M_bind, call, modify at 1. cbn.
  destruct (exec_module ld w) as [[m|e] w1]; [|reflexivity].
  destruct (override_argv _ _ _) as [[r w2] t]. reflexivity.
Qed.

Lemma execution_try_body_run w :
  execution_try_body H manage_py_path test_ids args w
  = let w0 := execution_load_world H manage_py_path w in
    let ev := EvSpecFromFile "manage" manage_py_path in
    match spec_from_file_location H "manage" manage_py_path with
    | Raise e => (Raise e, w0, [ev])
    | Ok None => (Raise import_error, w0, [ev])
    | Ok (Some spec) =>
        match loader spec with
        | None => (Raise import_error, w0, [ev])
        | Some ld =>
            let '(r, w2, t) :=
              execution_run_manage H manage_py_path test_ids args ld w0 in
            (r, w2, ev :: t)
        end
    end.
Proof.
  unfold execution_try_body, execution_load_world.
  unfold mbind, M_bind, raise, modify, gets, extern. cbn.
  destruct (spec_from_file_location H _ _) as [[spec|]|e]; try reflexivity.
  destruct (loader spec) as [ld|]; [|reflexivity].
  destruct (execution_run_manage _ _ _ _ _ _) as [[r w2] t]. reflexivity.
Qed.

Lemma execution_runner_run w :
  path_exists H manage_py_path = Ok true →
  django_execution_runner H manage_py_path test_ids args w
  = match execution_try_body H manage_py_path test_ids args w with
    | (Raise e, w1, t) =>
        if isinstance e Exception
        then (Ok tt,
              write_stderr ("Error during Django test execution: " +:+ str e) w1,
              t)
        else (Raise e, w1, t)
    | ok => ok
    end.
Proof.
  intros Hex. rewrite execution_runner_checked, Hex.
  unfold try_except.
  destruct (execution_try_body _ _ _ _ _) as [[[u|e] w1] t]; [reflexivity|].
  destruct (isinstance e Exception); [|reflexivity].
  unfold modify. by rewrite app_nil_r.
Qed.

(** The runner on an input that reaches the nested call. *)
Lemma execution_runner_reaching w m w1 :
  reaches_main H manage_py_path w m w1 →
  django_execution_runner H manage_py_path test_ids args w
  = match main m with
    | Some f =>
        let '(r, w2) := f (execution_main_world H manage_py_path test_ids args w1) in
        let t := [EvSpecFromFile "manage" manage_py_path; EvExecModule;
                  EvMain (execution_argv manage_py_path args test_ids)] in
        match suppressed r with
        | Raise e =>
            if isinstance e Exception
            then (Ok tt,
                  write_stderr
                    ("Error during Django test execution: " +:+ str e)
                    (set_sys_argv (sys_argv w1) w2), t)
            else (Raise e, set_sys_argv (sys_argv w1) w2, t)
        | Ok u => (Ok u, set_sys_argv (sys_argv w1) w2, t)
        end
    | None =>
        (Ok tt,
         write_stderr
           "Error during Django test execution: module 'manage' has no attribute 'main'"
           (set_sys_argv (sys_argv w1)
              (execution_main_world H manage_py_path test_ids args w1)),
         [EvSpecFromFile "manage" manage_py_path; EvExecModule])
    end.
Proof.
  intros (Hex & spec & ld & Hspec & Hld & Hexec).
  rewrite execution_runner_run by done.
  rewrite execution_try_body_run. cbn zeta. rewrite Hspec, Hld.
  rewrite execution_run_manage_run, Hexec, with_block_run.
  destruct (main m) as [f|]; [|reflexivity].
  destruct (f _) as [r w2]. destruct (suppressed r) as [[]|e]; [reflexivity|].
  destruct (isinstance e Exception); reflexivity.
Qed.
Lemma execution_runner_events w :
  path_exists H manage_py_path = Ok true →
  (django_execution_runner H manage_py_path test_ids args w).2
  = (execution_try_body H manage_py_path test_ids args w).2.
Proof.
  intros Hex. rewrite execution_runner_run by done.
  destruct (execution_try_body _ _ _ _ _) as [[[u|e] w1] t]; [reflexivity|].
  destruct (isinstance e Exception); reflexivity.
Qed.

(** The calls into foreign code are made in one order and stop at the
    first that fails. *)
Lemma execution_try_body_events w :
  let t := (execution_try_body H manage_py_path test_ids args w).2 in
  t = [EvSpecFromFile "manage" manage_py_path] ∨
  t = [EvSpecFromFile "manage" manage_py_path; EvExecModule] ∨
  t = [EvSpecFromFile "manage" manage_py_path; EvExecModule;
       EvMain (execution_argv manage_py_path args test_ids)].
Proof.
  rewrite execution_try_body_run. cbn zeta.
  destruct (spec_from_file_location H _ _) as [[spec|]|e]; [|by left..].
  destruct (loader spec) as [ld|]; [|by left].
  rewrite execution_run_manage_run.
  destruct (exec_module ld _) as [[m|e] w1]; [|by right; left].
  rewrite with_block_run.
  destruct (main m) as [f|]; [|by right; left].
  destruct (f _) as [r w2]. by right; right.
Qed.
End Execution.

(** *** The claims about discovery *)

(** C1, as the code has it: when [pathlib.Path(path).exists()] answers
    [False], both runners raise [VSCodeUnittestError] at once: the world is
    the one they were called in (no change of [sys.path], of the environment
    or of the streams) and no action was handed to foreign code (no child
    process, no module loading).  When the check itself raises, both runners
    raise that exception as it is, likewise before anything else. *)
Theorem failed_path_check_raises_first H manage_py_path test_ids args w :
  (path_exists H manage_py_path = Ok false →
   django_discovery_runner H manage_py_path args w
   = (Raise (Exn VSCodeUnittestError
                 "Error running Django, manage.py path does not exist." None),
      w, []) ∧
   django_execution_runner H manage_py_path test_ids args w
   = (Raise (Exn VSCodeUnittestError
                 "Error running Django, manage.py path does not exist." None),
      w, [])) ∧
  (∀ e, path_exists H manage_py_path = Raise e →
        django_discovery_runner H manage_py_path args w = (Raise e, w, []) ∧
        django_execution_runner H manage_py_path test_ids args w
        = (Raise e, w, [])).
Proof.
  rewrite discovery_runner_checked, execution_runner_checked. split.
  - intros ->. split; reflexivity.
  - intros e ->. split; reflexivity.
Qed.

Lemma failed_path_check_raises_first_witness :
  path_exists plain_host "/elsewhere/manage.py" = Ok false ∧
  (django_discovery_runner plain_host "/elsewhere/manage.py" ["-v"]
     sample_world
   = (Raise (Exn VSCodeUnittestError
                 "Error running Django, manage.py path does not exist." None),
      sample_world, []) ∧
   django_execution_runner plain_host "/elsewhere/manage.py" ["app.T.test_a"]
     ["-v"] sample_world
   = (Raise (Exn VSCodeUnittestError
                 "Error running Django, manage.py path does not exist." None),
      sample_world, [])) ∧
  path_exists plain_host long_name_path = Raise name_too_long ∧
  (django_discovery_runner plain_host long_name_path ["-v"] sample_world
   = (Raise name_too_long, sample_world, []) ∧
   django_execution_runner plain_host long_name_path ["app.T.test_a"] ["-v"]
     sample_world
   = (Raise name_too_long, sample_world, [])).
Proof.
  split; [reflexivity|]. split.
  - exact (proj1 (failed_path_check_raises_first plain_host
                    "/elsewhere/manage.py" ["app.T.test_a"] ["-v"]
                    sample_world) eq_refl).
  - split; [vm_compute; reflexivity|].
    apply (proj2 (failed_path_check_raises_first plain_host long_name_path
                    ["app.T.test_a"] ["-v"] sample_world) name_too_long).
    vm_compute. reflexivity.
Defined.

(** C1 as stated fails: for a path that names nothing and has a component
    longer than the filesystem accepts, the check raises [OSError], and both
    runners raise that [OSError], which is no [VSCodeUnittestError]. *)
Lemma missing_long_name_raises_OSError :
  path_exists plain_host long_name_path = Raise name_too_long ∧
  django_discovery_runner plain_host long_name_path [] sample_world
  = (Raise (Exn (UserClass "OSError" Exception)
                "[Errno 36] File name too long" None),
     sample_world, []) ∧
  django_execution_runner plain_host long_name_path ["app.T.test_a"] []
    sample_world
  = (Raise (Exn (UserClass "OSError" Exception)
                "[Errno 36] File name too long" None),
     sample_world, []) ∧
  isinstance (Exn (UserClass "OSError" Exception)
                  "[Errno 36] File name too long" None)
    VSCodeUnittestError = false.
Proof. repeat split; vm_compute; reflexivity. Qed.

(** C5: for an existing [manage.py], discovery makes exactly one call into
    foreign code, the launch of one child process, and its command line is
    the interpreter, the path, [test], the discovery test runner option and
    then the passthrough arguments in order. *)
Theorem discovery_launches_one_child H manage_py_path args w :
  path_exists H manage_py_path = Ok true →
  (django_discovery_runner H manage_py_path args w).2
  = [EvRun ([sys_executable H; manage_py_path; "test";
             "--testrunner=django_test_runner.CustomDiscoveryTestRunner"]
              ++ args)
           (prepend_pythonpath (script_dir H) (pathsep H) (os_environ w))].
Proof.
  intros Hex. rewrite discovery_runner_run by done. cbn zeta.
  destruct (subprocess_run H _ _); reflexivity.
Qed.

Lemma discovery_launches_one_child_witness :
  path_exists plain_host "/proj/manage.py" = Ok true ∧
  (django_discovery_runner plain_host "/proj/manage.py" ["-v"; "2"]
     sample_world).2
  = [EvRun ["/usr/bin/python3"; "/proj/manage.py"; "test";
            "--testrunner=django_test_runner.CustomDiscoveryTestRunner";
            "-v"; "2"]
           (prepend_pythonpath "/ext/python_files/unittestadapter" ":"
              {[ "HOME" := "/home/dev" ]})].
Proof.
  split; [reflexivity|].
  apply (discovery_launches_one_child plain_host "/proj/manage.py" ["-v"; "2"]
           sample_world).
  reflexivity.
Defined.

(** C4: for an existing [manage.py] and a child process that has exited,
    discovery returns normally whatever the exit code is.  With code 0 or 1
    the only line added to standard error is the captured standard error of
    the child; with any other code the error message line follows it. *)
Theorem discovery_exit_code_never_raises H manage_py_path args w p :
  path_exists H manage_py_path = Ok true →
  subprocess_run H (discovery_command H manage_py_path args)
    (discovery_env H w) = Ok p →
  (django_discovery_runner H manage_py_path args w).1.1 = Ok tt ∧
  ((returncode p = 0 ∨ returncode p = 1)%Z →
   stderr (django_discovery_runner H manage_py_path args w).1.2
   = stderr w ++ [cp_stderr p]) ∧
  (returncode p ≠ 0%Z → returncode p ≠ 1%Z →
   stderr (django_discovery_runner H manage_py_path args w).1.2
   = stderr w ++
       [cp_stderr p;
        "Django test discovery process exited with non-zero error code See stderr above for more details."]).
Proof.
  intros Hex Hrun. rewrite discovery_runner_run by done. cbn zeta.
  rewrite Hrun. cbn [fst snd]. rewrite discovery_report_stderr.
  split; [reflexivity|]. split.
  - intros Hrc. rewrite bool_decide_eq_true_2; [reflexivity|].
    rewrite elem_of_cons, list_elem_of_singleton. exact Hrc.
  - intros H0 H1. rewrite bool_decide_eq_false_2; [reflexivity|].
    rewrite elem_of_cons, list_elem_of_singleton. tauto.
Qed.

Lemma discovery_exit_code_never_raises_witness :
  path_exists failing_child_host "/proj/manage.py" = Ok true ∧
  subprocess_run failing_child_host
    (discovery_command failing_child_host "/proj/manage.py" [])
    (discovery_env failing_child_host sample_world)
  = Ok (mkCompletedProcess 2 "out" "err") ∧
  (django_discovery_runner failing_child_host "/proj/manage.py" []
     sample_world).1.1 = Ok tt ∧
  stderr (django_discovery_runner failing_child_host "/proj/manage.py" []
            sample_world).1.2
  = ["err";
     "Django test discovery process exited with non-zero error code See stderr above for more details."].
Proof.
  split; [reflexivity|]. split; [reflexivity|].
  pose proof (discovery_exit_code_never_raises failing_child_host
                "/proj/manage.py" [] sample_world
                (mkCompletedProcess 2 "out" "err") eq_refl eq_refl)
    as (Hok & _ & Herr).
  split; [exact Hok|]. apply Herr; cbn; lia.
Defined.

(** C7, as the code has it: for an existing [manage.py], an exception raised
    inside the [try] of discovery that is an instance of [Exception] is
    caught and raised again as a [VSCodeUnittestError] whose message quotes
    it and whose context it is; an exception that is not an instance of
    [Exception] goes through unchanged.  So whatever discovery raises is a
    [VSCodeUnittestError] or is not an [Exception]. *)
Theorem discovery_wraps_Exception H manage_py_path args w :
  path_exists H manage_py_path = Ok true →
  (∀ e w1 t,
     discovery_try_body H manage_py_path args w = (Raise e, w1, t) →
     django_discovery_runner H manage_py_path args w
     = (Raise (if isinstance e Exception
               then Exn VSCodeUnittestError
                        ("Error during Django discovery: " +:+ str e) (Some e)
               else e), w1, t)) ∧
  (∀ e, (django_discovery_runner H manage_py_path args w).1.1 = Raise e →
        class_of e = VSCodeUnittestError ∨ isinstance e Exception = false).
Proof.
  intros Hex. split.
  - intros e w1 t Hbody. rewrite discovery_runner_checked, Hex.
    unfold try_except. rewrite Hbody.
    destruct (isinstance e Exception); [|reflexivity].
    unfold raise. by rewrite app_nil_r.
  - intros e. rewrite discovery_runner_run by done. cbn zeta.
    destruct (subprocess_run H _ _) as [p|e']; [discriminate|]. cbn.
    destruct (isinstance e' Exception) eqn:He'; intros [= <-]; auto.
Qed.

Lemma discovery_wraps_Exception_witness :
  path_exists no_interpreter_host "/proj/manage.py" = Ok true ∧
  (django_discovery_runner no_interpreter_host "/proj/manage.py" []
     sample_world).1.1
  = Raise (Exn VSCodeUnittestError
               "Error during Django discovery: No such file"
               (Some (Exn (UserClass "OSError" Exception) "No such file" None))).
Proof.
  split; [reflexivity|].
  destruct (discovery_wraps_Exception no_interpreter_host "/proj/manage.py" []
              sample_world eq_refl) as [Hwrap _].
  rewrite (Hwrap _ _ _ eq_refl). reflexivity.
Defined.

(** C7 as stated fails: when the user interrupts the parent while it waits
    for the child, discovery raises [KeyboardInterrupt], which is not a
    [VSCodeUnittestError]. *)
Lemma discovery_lets_KeyboardInterrupt_escape :
  path_exists interrupted_host "/proj/manage.py" = Ok true ∧
  (django_discovery_runner interrupted_host "/proj/manage.py" []
     sample_world).1.1
  = Raise (Exn KeyboardInterrupt "" None) ∧
  isinstance (Exn KeyboardInterrupt "" None) VSCodeUnittestError = false.
Proof. repeat split; reflexivity. Qed.

(** C9 as stated fails: discovery returns normally and [sys.path] has one
    more entry than before the call. *)
Lemma discovery_changes_sys_path :
  path_exists plain_host "/proj/manage.py" = Ok true ∧
  (django_discovery_runner plain_host "/proj/manage.py" []
     sample_world).1.1 = Ok tt ∧
  sys_path (django_discovery_runner plain_host "/proj/manage.py" []
              sample_world).1.2
  = ["/ext/python_files/unittestadapter"; "/ext/python_files"] ∧
  sys_path sample_world = ["/ext/python_files"] ∧
  sys_path (django_discovery_runner plain_host "/proj/manage.py" []
              sample_world).1.2
  ≠ sys_path sample_world.
Proof. repeat split; try reflexivity. discriminate. Qed.

(** *** The claims about execution *)

(** C2: for an existing [manage.py], every entry into [main] that the
    runner makes finds [sys.argv] equal to the path, [test], the execution
    test runner option, the passthrough arguments in order and then the test
    identifiers in order; and when the module loads and has a [main], that
    entry is made, once, after the two calls that load the module. *)
Theorem execution_sets_argv_before_main H manage_py_path test_ids args w :
  path_exists H manage_py_path = Ok true →
  (∀ argv,
     EvMain argv ∈ (django_execution_runner H manage_py_path test_ids args w).2 →
     argv = [manage_py_path; "test";
             "--testrunner=django_test_runner.CustomExecutionTestRunner"]
              ++ args ++ test_ids) ∧
  (∀ m w1 f,
     reaches_main H manage_py_path w m w1 → main m = Some f →
     sys_argv (execution_main_world H manage_py_path test_ids args w1)
     = [manage_py_path; "test";
        "--testrunner=django_test_runner.CustomExecutionTestRunner"]
         ++ args ++ test_ids ∧
     (django_execution_runner H manage_py_path test_ids args w).2
     = [EvSpecFromFile "manage" manage_py_path; EvExecModule;
        EvMain ([manage_py_path; "test";
                 "--testrunner=django_test_runner.CustomExecutionTestRunner"]
                  ++ args ++ test_ids)]).
Proof.
  intros Hex. split.
  - intros argv. rewrite execution_runner_events by done.
    destruct (execution_try_body_events H manage_py_path test_ids args w)
      as [-> | [-> | ->]];
      rewrite ?elem_of_cons, elem_of_nil; intros Hin;
      repeat (destruct Hin as [Hin|Hin];
              [try discriminate; by injection Hin as ->|]);
      contradiction.
  - intros m w1 f Hreach Hmain. split; [reflexivity|].
    rewrite (execution_runner_reaching _ _ _ _ _ _ _ Hreach), Hmain.
    destruct (f _) as [r w2].
    destruct (suppressed r) as [[]|e]; [reflexivity|].
    destruct (isinstance e Exception); reflexivity.
Qed.

Lemma django_host_reaches_main :
  reaches_main django_host "/proj/manage.py" sample_world
    (mkModule (Some django_main))
    (execution_load_world django_host "/proj/manage.py" sample_world).
Proof. split; [reflexivity|]. do 2 eexists. repeat split; reflexivity. Qed.

Lemma sample_reaches_main run f w :
  reaches_main (sample_host run (manage_with_main f)) "/proj/manage.py" w
    (mkModule f)
    (execution_load_world (sample_host run (manage_with_main f))
       "/proj/manage.py" w).
Proof. split; [reflexivity|]. do 2 eexists. repeat split; reflexivity. Qed.

Lemma execution_sets_argv_before_main_witness :
  path_exists django_host "/proj/manage.py" = Ok true ∧
  (django_execution_runner django_host "/proj/manage.py"
     ["app.T.test_a"; "app.T.test_b"] ["-v"; "2"] sample_world).2
  = [EvSpecFromFile "manage" "/proj/manage.py"; EvExecModule;
     EvMain ["/proj/manage.py"; "test";
             "--testrunner=django_test_runner.CustomExecutionTestRunner";
             "-v"; "2"; "app.T.test_a"; "app.T.test_b"]].
Proof.
  split; [reflexivity|].
  destruct (execution_sets_argv_before_main django_host "/proj/manage.py"
              ["app.T.test_a"; "app.T.test_b"] ["-v"; "2"] sample_world eq_refl)
    as [_ Hcall].
  destruct (Hcall _ _ _ django_host_reaches_main eq_refl) as [_ Hlog].
  exact Hlog.
Defined.

(** C3: when the runner reaches the nested call, [sys.argv] after the runner
    is the list it was just before the [with] statement, whatever the module
    is: [main] may return, raise an exception that the handler swallows,
    raise [SystemExit], raise an exception that escapes, change [sys.argv]
    itself, or be missing. *)
Theorem execution_restores_argv H manage_py_path test_ids args w m w1 :
  reaches_main H manage_py_path w m w1 →
  sys_argv (execution_with_world H manage_py_path test_ids args w1)
  = sys_argv w1 ∧
  sys_argv (django_execution_runner H manage_py_path test_ids args w).1.2
  = sys_argv w1.
Proof.
  intros Hreach. split; [reflexivity|].
  rewrite (execution_runner_reaching _ _ _ _ _ _ _ Hreach).
  destruct (main m) as [f|]; [|reflexivity].
  destruct (f _) as [r w2].
  destruct (suppressed r) as [[]|e]; [reflexivity|].
  destruct (isinstance e Exception); reflexivity.
Qed.

Lemma execution_restores_argv_witness :
  reaches_main django_host "/proj/manage.py" sample_world
    (mkModule (Some django_main))
    (execution_load_world django_host "/proj/manage.py" sample_world) ∧
  sys_argv (django_execution_runner django_host "/proj/manage.py"
              ["app.T.test_a"] [] sample_world).1.2
  = ["execution.py"; "--udiscovery"].
Proof.
  split; [exact django_host_reaches_main|].
  exact (proj2 (execution_restores_argv django_host "/proj/manage.py"
                  ["app.T.test_a"] [] sample_world _ _
                  django_host_reaches_main)).
Defined.

(** C8: when the runner reaches the nested call and [main] raises
    [SystemExit], the runner returns normally: nothing is raised to the
    caller, nothing is written to standard error, and [sys.argv] is back. *)
Theorem execution_suppresses_SystemExit
    H manage_py_path test_ids args w m w1 f e w2 :
  reaches_main H manage_py_path w m w1 →
  main m = Some f →
  f (execution_main_world H manage_py_path test_ids args w1) = (Raise e, w2) →
  isinstance e SystemExit = true →
  django_execution_runner H manage_py_path test_ids args w
  = (Ok tt, set_sys_argv (sys_argv w1) w2,
     [EvSpecFromFile "manage" manage_py_path; EvExecModule;
      EvMain (execution_argv manage_py_path args test_ids)]).
Proof.
  intros Hreach Hmain Hf He.
  rewrite (execution_runner_reaching _ _ _ _ _ _ _ Hreach), Hmain, Hf.
  cbn. rewrite He. reflexivity.
Qed.

Lemma execution_suppresses_SystemExit_witness :
  reaches_main django_host "/proj/manage.py" sample_world
    (mkModule (Some django_main))
    (execution_load_world django_host "/proj/manage.py" sample_world) ∧
  isinstance (Exn SystemExit "0" None) SystemExit = true ∧
  (django_execution_runner django_host "/proj/manage.py" ["app.T.test_a"] []
     sample_world).1.1 = Ok tt ∧
  stderr (django_execution_runner django_host "/proj/manage.py"
            ["app.T.test_a"] [] sample_world).1.2 = [].
Proof.
  split; [exact django_host_reaches_main|]. split; [reflexivity|].
  rewrite (execution_suppresses_SystemExit django_host "/proj/manage.py"
             ["app.T.test_a"] [] sample_world _ _ django_main
             (Exn SystemExit "0" None) _
             django_host_reaches_main eq_refl eq_refl eq_refl).
  split; reflexivity.
Defined.

(** C10: for an existing [manage.py] that cannot be loaded (no module spec,
    or a spec without a loader), the [VSCodeUnittestError] raised inside the
    [try] is caught by the handler of that same [try]: the runner returns
    normally, the caller only gets the message on standard error, and
    neither the module nor [main] was run. *)
Theorem execution_import_failure_swallowed H manage_py_path test_ids args w :
  path_exists H manage_py_path = Ok true →
  import_fails H manage_py_path →
  (execution_try_body H manage_py_path test_ids args w).1.1
  = Raise (Exn VSCodeUnittestError
               "Error importing manage.py when running Django testing." None) ∧
  django_execution_runner H manage_py_path test_ids args w
  = (Ok tt,
     write_stderr
       "Error during Django test execution: Error importing manage.py when running Django testing."
       (execution_load_world H manage_py_path w),
     [EvSpecFromFile "manage" manage_py_path]).
Proof.
  intros Hex Hfail.
  rewrite execution_runner_run, execution_try_body_run by done. cbn zeta.
  destruct Hfail as [-> | (spec & -> & ->)]; split; reflexivity.
Qed.

Lemma execution_import_failure_swallowed_witness :
  path_exists plain_host "/proj/manage.py" = Ok true ∧
  import_fails plain_host "/proj/manage.py" ∧
  (django_execution_runner plain_host "/proj/manage.py" ["app.T.test_a"] []
     sample_world).1.1 = Ok tt ∧
  stderr (django_execution_runner plain_host "/proj/manage.py"
            ["app.T.test_a"] [] sample_world).1.2
  = ["Error during Django test execution: Error importing manage.py when running Django testing."].
Proof.
  split; [reflexivity|]. split; [left; reflexivity|].
  destruct (execution_import_failure_swallowed plain_host "/proj/manage.py"
              ["app.T.test_a"] [] sample_world eq_refl
              (or_introl eq_refl)) as [_ ->].
  split; reflexivity.
Defined.




(** C9, as the code has it: for an existing [manage.py], discovery leaves
    [sys.argv] and [os.environ] as they were and leaves [sys.path] with the
    adapter's directory put in front; execution, when the code of
    [manage.py] itself changes none of them, leaves [sys.argv] and
    [os.environ] as they were and leaves [sys.path] with the adapter's
    directory and then the project's directory put in front. *)
Theorem runners_leave_sys_path_extended H manage_py_path test_ids args w :
  path_exists H manage_py_path = Ok true →
  (let w' := (django_discovery_runner H manage_py_path args w).1.2 in
   sys_argv w' = sys_argv w ∧ os_environ w' = os_environ w ∧
   sys_path w' = script_dir H :: sys_path w) ∧
  (manage_py_leaves_globals H manage_py_path →
   let w' := (django_execution_runner H manage_py_path test_ids args w).1.2 in
   sys_argv w' = sys_argv w ∧ os_environ w' = os_environ w ∧
   sys_path w' = path_parent H manage_py_path :: script_dir H :: sys_path w).
Proof.
  intros Hex. split.
  - rewrite discovery_runner_run by done. cbn zeta.
    destruct (subprocess_run H _ _) as [p|e]; [|done].
    cbn [fst snd].
    destruct (discovery_report_globals p
                (discovery_launch_world H manage_py_path args w))
      as (-> & -> & ->). done.
  - intros Hframe. cbn zeta.
    rewrite execution_runner_run, execution_try_body_run by done. cbn zeta.
    destruct (spec_from_file_location H _ _) as [[spec|]|e] eqn:Hspec;
      [| done | by destruct (isinstance e Exception)].
    destruct (loader spec) as [ld|] eqn:Hld; [|done].
    destruct (Hframe spec ld Hspec Hld) as [Hexec Hmain].
    rewrite execution_run_manage_run.
    specialize (Hexec (execution_load_world H manage_py_path w)).
    specialize (Hmain (execution_load_world H manage_py_path w)).
    destruct (exec_module ld _) as [[m|e] w1]; cbn [fst snd] in *.
    + destruct Hexec as (Hargv & Hpath & Henv).
      rewrite with_block_run.
      destruct (main m) as [f|] eqn:Hf.
      * destruct (Hmain m f eq_refl Hf
                    (execution_main_world H manage_py_path test_ids args w1))
          as [Hfpath Hfenv].
        destruct (f _) as [r w2]. cbn [fst snd] in *.
        assert (sys_argv (set_sys_argv (sys_argv w1) w2) = sys_argv w ∧
                os_environ (set_sys_argv (sys_argv w1) w2) = os_environ w ∧
                sys_path (set_sys_argv (sys_argv w1) w2)
                = path_parent H manage_py_path :: script_dir H :: sys_path w)
          as Hfinal.
        { cbn. rewrite Hfenv, Hfpath. cbn. rewrite Henv, Hpath. done. }
        destruct (suppressed r) as [[]|e]; [exact Hfinal|].
        destruct (isinstance e Exception); exact Hfinal.
      * destruct (isinstance _ Exception); cbn; rewrite Henv, Hpath; done.
    + destruct Hexec as (Hargv & Hpath & Henv).
      destruct (isinstance e Exception); cbn; rewrite Henv, Hpath; done.
Qed.

Lemma django_host_leaves_globals :
  manage_py_leaves_globals django_host "/proj/manage.py".
Proof.
  intros spec ld [= <-] [= <-]. split; [done|].
  intros w m f [= <-] [= <-]. done.
Qed.

Lemma runners_leave_sys_path_extended_witness :
  path_exists django_host "/proj/manage.py" = Ok true ∧
  manage_py_leaves_globals django_host "/proj/manage.py" ∧
  sys_path (django_discovery_runner django_host "/proj/manage.py" []
              sample_world).1.2
  = ["/ext/python_files/unittestadapter"; "/ext/python_files"] ∧
  sys_path (django_execution_runner django_host "/proj/manage.py"
              ["app.T.test_a"] [] sample_world).1.2
  = ["/proj"; "/ext/python_files/unittestadapter"; "/ext/python_files"] ∧
  sys_argv (django_execution_runner django_host "/proj/manage.py"
              ["app.T.test_a"] [] sample_world).1.2
  = ["execution.py"; "--udiscovery"].
Proof.
  split; [reflexivity|]. split; [exact django_host_leaves_globals|].
  destruct (runners_leave_sys_path_extended django_host "/proj/manage.py"
              ["app.T.test_a"] [] sample_world eq_refl) as [Hd He].
  destruct Hd as (_ & _ & Hdp).
  destruct (He django_host_leaves_globals) as (Hea & _ & Hep).
  split; [exact Hdp | split; [exact Hep | exact Hea]].
Defined.

(** *** Further properties: the context manager *)

Lemma override_argv_run {A : Type} (argv : list string) (body : M A) w :
  override_argv argv body w
  = let '(r, w1, t) := body (set_sys_argv argv w) in
    (r, set_sys_argv (sys_argv w) w1, t).
Proof.
  run_monad. destruct (body _) as [[r w1] t1]. by rewrite app_nil_r.
Qed.

(** X1: [override_argv], for every block: the block is entered with
    [sys.argv] bound to the given list; its outcome (value or exception) and
    its calls are those of the block; afterwards [sys.argv] is what it was on
    entry of the [with], and everything else is as the block left it. *)
Theorem override_argv_scoped {A : Type} (argv : list string) (body : M A) w :
  (override_argv argv body w).1.1 = (body (set_sys_argv argv w)).1.1 ∧
  (override_argv argv body w).2 = (body (set_sys_argv argv w)).2 ∧
  sys_argv (set_sys_argv argv w) = argv ∧
  (override_argv argv body w).1.2
  = set_sys_argv (sys_argv w) (body (set_sys_argv argv w)).1.2.
Proof.
  rewrite override_argv_run. by destruct (body _) as [[r w1] t1].
Qed.


(** X3: around a block that leaves the world as it finds it,
    [override_argv] leaves the world as it finds it: overriding and
    restoring cancel out. *)
Theorem override_argv_round_trip {A : Type} (argv : list string)
    (body : M A) w :
  (body (set_sys_argv argv w)).1.2 = set_sys_argv argv w →
  (override_argv argv body w).1.2 = w.
Proof.
  intros Hquiet. rewrite override_argv_run.
  destruct (body _) as [[r w1] t1]. cbn in *. subst w1. by destruct w.
Qed.

Lemma override_argv_round_trip_witness :
  (gets sys_path (set_sys_argv ["manage.py"; "test"] sample_world)).1.2
  = set_sys_argv ["manage.py"; "test"] sample_world ∧
  (override_argv ["manage.py"; "test"] (gets sys_path) sample_world).1.2
  = sample_world.
Proof.
  split; [reflexivity|].
  apply (override_argv_round_trip ["manage.py"; "test"] (gets sys_path)
           sample_world).
  reflexivity.
Defined.

(** *** Further properties: discovery *)

(** X4: the environment of the child of discovery is the parent's with
    [PYTHONPATH] set: to the adapter's directory alone when the parent has
    none, else to that directory, the path separator and the parent's value.
    Every other variable reaches the child unchanged, and the parent's own
    environment is not touched. *)
Theorem discovery_child_env H manage_py_path args w command env :
  path_exists H manage_py_path = Ok true →
  EvRun command env ∈ (django_discovery_runner H manage_py_path args w).2 →
  env !! "PYTHONPATH"
  = Some (match os_environ w !! "PYTHONPATH" with
          | Some old => script_dir H +:+ pathsep H +:+ old
          | None => script_dir H
          end) ∧
  (∀ k, k ≠ "PYTHONPATH" → env !! k = os_environ w !! k) ∧
  os_environ (django_discovery_runner H manage_py_path args w).1.2
  = os_environ w.
Proof.
  intros Hex. rewrite discovery_runner_run by done. cbn zeta.
  assert (env = discovery_env H w →
          env !! "PYTHONPATH"
          = Some (match os_environ w !! "PYTHONPATH" with
                  | Some old => script_dir H +:+ pathsep H +:+ old
                  | None => script_dir H
                  end) ∧
          (∀ k, k ≠ "PYTHONPATH" → env !! k = os_environ w !! k)) as Henv.
  { intros ->. unfold discovery_env, prepend_pythonpath.
    destruct (os_environ w !! "PYTHONPATH") as [old|].
    - split; [apply lookup_insert_eq|].
      intros k Hk. by apply lookup_insert_ne.
    - split; [apply lookup_insert_eq|].
      intros k Hk. by apply lookup_insert_ne. }
  destruct (subprocess_run H _ _) as [p|e]; cbn [fst snd];
    rewrite list_elem_of_singleton; intros [= _ ->];
    destruct (Henv eq_refl) as [Hpp Hother]; repeat split; try done.
  by destruct (discovery_report_globals p
                 (discovery_launch_world H manage_py_path args w))
       as (_ & _ & ->).
Qed.

Lemma discovery_child_env_witness :
  path_exists plain_host "/proj/manage.py" = Ok true ∧
  EvRun (discovery_command plain_host "/proj/manage.py" [])
        (discovery_env plain_host sample_world)
    ∈ (django_discovery_runner plain_host "/proj/manage.py" []
         sample_world).2 ∧
  discovery_env plain_host sample_world !! "PYTHONPATH"
  = Some "/ext/python_files/unittestadapter" ∧
  discovery_env plain_host sample_world !! "HOME" = Some "/home/dev".
Proof.
  assert (EvRun (discovery_command plain_host "/proj/manage.py" [])
                (discovery_env plain_host sample_world)
            ∈ (django_discovery_runner plain_host "/proj/manage.py" []
                 sample_world).2) as Hin.
  { apply list_elem_of_singleton. reflexivity. }
  split; [reflexivity|]. split; [exact Hin|].
  destruct (discovery_child_env plain_host "/proj/manage.py" [] sample_world
              _ _ eq_refl Hin) as (Hpp & Hother & _).
  split; [exact Hpp|].
  rewrite Hother by discriminate. reflexivity.
Defined.

Lemma discovery_report_stdout p w :
  stdout (discovery_report p w) = stdout w ++ [cp_stdout p].
Proof. unfold discovery_report. by destruct (negb _). Qed.

(** X5: for an existing [manage.py], discovery announces the command on
    standard output and then relays what the child wrote there, as one line
    each and in that order.  When the child could not be run, the
    announcement is all that is printed: nothing reaches standard error. *)
Theorem discovery_relays_output H manage_py_path args w :
  path_exists H manage_py_path = Ok true →
  (∀ p,
     subprocess_run H (discovery_command H manage_py_path args)
       (discovery_env H w) = Ok p →
     stdout (django_discovery_runner H manage_py_path args w).1.2
     = stdout w ++
         ["Running Django tests with command: "
            +:+ repr H ([sys_executable H; manage_py_path; "test";
                         "--testrunner=django_test_runner.CustomDiscoveryTestRunner"]
                          ++ args);
          cp_stdout p]) ∧
  (∀ e,
     subprocess_run H (discovery_command H manage_py_path args)
       (discovery_env H w) = Raise e →
     stdout (django_discovery_runner H manage_py_path args w).1.2
     = stdout w ++
         ["Running Django tests with command: "
            +:+ repr H ([sys_executable H; manage_py_path; "test";
                         "--testrunner=django_test_runner.CustomDiscoveryTestRunner"]
                          ++ args)] ∧
     stderr (django_discovery_runner H manage_py_path args w).1.2 = stderr w).
Proof.
  intros Hex. rewrite discovery_runner_run by done. cbn zeta. split.
  - intros p ->. cbn [fst snd]. rewrite discovery_report_stdout. cbn.
    by rewrite <- app_assoc.
  - intros e ->. done.
Qed.

Lemma discovery_relays_output_witness :
  path_exists failing_child_host "/proj/manage.py" = Ok true ∧
  subprocess_run failing_child_host
    (discovery_command failing_child_host "/proj/manage.py" ["-v"])
    (discovery_env failing_child_host sample_world)
  = Ok (mkCompletedProcess 2 "out" "err") ∧
  stdout (django_discovery_runner failing_child_host "/proj/manage.py" ["-v"]
            sample_world).1.2
  = ["Running Django tests with command: [/usr/bin/python3, /proj/manage.py, test, --testrunner=django_test_runner.CustomDiscoveryTestRunner, -v]";
     "out"].
Proof.
  split; [reflexivity|]. split; [reflexivity|].
  destruct (discovery_relays_output failing_child_host "/proj/manage.py"
              ["-v"] sample_world eq_refl) as [Hrelay _].
  exact (Hrelay _ eq_refl).
Defined.

Lemma times_S n (m : M unit) w :
  times (S n) m w
  = match m w with
    | (Ok _, w1, t1) => let '(r, w2, t2) := times n m w1 in (r, w2, t1 ++ t2)
    | (Raise e, w1, t1) => (Raise e, w1, t1)
    end.
Proof. cbn [times]. unfold mbind, M_bind. by destruct (m w) as [[[[]|e] w1] t1]. Qed.

(** X6: calls of discovery add up.  When the child can be run, [n] calls in
    a row all return normally, launch the same child [n] times, and leave [n]
    more copies of the adapter's directory at the front of [sys.path]; the
    environment and [sys.argv] stay as they were. *)
Theorem discovery_calls_accumulate H manage_py_path args p n w :
  path_exists H manage_py_path = Ok true →
  subprocess_run H (discovery_command H manage_py_path args)
    (discovery_env H w) = Ok p →
  let '(r, w', t) := times n (django_discovery_runner H manage_py_path args) w in
  r = Ok tt ∧
  sys_path w' = replicate n (script_dir H) ++ sys_path w ∧
  os_environ w' = os_environ w ∧
  sys_argv w' = sys_argv w ∧
  t = replicate n (EvRun (discovery_command H manage_py_path args)
                         (discovery_env H w)).
Proof.
  intros Hex. revert w. induction n as [|n IH]; intros w Hrun; [done|].
  rewrite times_S, discovery_runner_run by done. cbn zeta. rewrite Hrun.
  set (w1 := discovery_report p _).
  destruct (discovery_report_globals p
              (discovery_launch_world H manage_py_path args w))
    as (Hargv & Hpath & Henv).
  fold w1 in Hargv, Hpath, Henv.
  assert (discovery_env H w1 = discovery_env H w) as Heq
    by (unfold discovery_env; by rewrite Henv).
  specialize (IH w1). rewrite Heq in IH. specialize (IH Hrun).
  destruct (times n _ w1) as [[r w2] t].
  destruct IH as (-> & -> & -> & -> & ->).
  rewrite Hpath, Henv, Hargv. cbn.
  repeat split.
  by rewrite (cons_middle (script_dir H)), app_assoc, <- replicate_cons_app.
Qed.

Lemma discovery_calls_accumulate_witness :
  path_exists plain_host "/proj/manage.py" = Ok true ∧
  subprocess_run plain_host (discovery_command plain_host "/proj/manage.py" [])
    (discovery_env plain_host sample_world)
  = Ok (mkCompletedProcess 0 "out" "err") ∧
  sys_path (times 3 (django_discovery_runner plain_host "/proj/manage.py" [])
              sample_world).1.2
  = ["/ext/python_files/unittestadapter"; "/ext/python_files/unittestadapter";
     "/ext/python_files/unittestadapter"; "/ext/python_files"].
Proof.
  split; [reflexivity|]. split; [reflexivity|].
  pose proof (discovery_calls_accumulate plain_host "/proj/manage.py" []
                (mkCompletedProcess 0 "out" "err") 3 sample_world
                eq_refl eq_refl) as Hacc.
  destruct (times 3 _ sample_world) as [[r w'] t].
  destruct Hacc as (_ & Hpath & _). exact Hpath.
Defined.

(** *** Further properties: execution *)

(** X7: the calls execution makes into foreign code, for every input: none
    (the path is missing), or the import machinery alone, or that and the
    execution of the module, or those two and one entry into [main], in this
    order.  So [main] is entered at most once and only after the module ran,
    and no child process is ever launched. *)
Theorem execution_calls_in_order H manage_py_path test_ids args w :
  let t := (django_execution_runner H manage_py_path test_ids args w).2 in
  (t = [] ∨
   t = [EvSpecFromFile "manage" manage_py_path] ∨
   t = [EvSpecFromFile "manage" manage_py_path; EvExecModule] ∨
   t = [EvSpecFromFile "manage" manage_py_path; EvExecModule;
        EvMain ([manage_py_path; "test";
                 "--testrunner=django_test_runner.CustomExecutionTestRunner"]
                  ++ args ++ test_ids)]) ∧
  (t = [] ↔ path_exists H manage_py_path ≠ Ok true) ∧
  (∀ command env, EvRun command env ∉ t).
Proof.
  cbn zeta. destruct (path_exists H manage_py_path) as [[|]|e] eqn:Hex.
  - rewrite execution_runner_events by done.
    destruct (execution_try_body_events H manage_py_path test_ids args w)
      as [-> | [-> | ->]].
    + split; [auto|]. split; [done|]. intros c env.
      rewrite list_elem_of_singleton. discriminate.
    + split; [auto|]. split; [done|]. intros c env.
      rewrite !elem_of_cons, elem_of_nil. intros [?|[?|[]]]; discriminate.
    + split; [auto 6|]. split; [done|]. intros c env.
      rewrite !elem_of_cons, elem_of_nil. intros [?|[?|[?|[]]]]; discriminate.
  - rewrite execution_runner_checked, Hex. cbn.
    split; [auto|]. split; [done|]. intros c env. apply not_elem_of_nil.
  - rewrite execution_runner_checked, Hex. cbn.
    split; [auto|]. split; [done|]. intros c env. apply not_elem_of_nil.
Qed.





(** X10: a [manage.py] that loads but has no [main] is reported by message
    only: the [AttributeError] of the lookup is raised inside the [with], so
    [sys.argv] was overridden and is restored, no entry into [main] is
    made, and execution returns normally with one line on standard error. *)
Theorem execution_missing_main_swallowed
    H manage_py_path test_ids args w m w1 :
  reaches_main H manage_py_path w m w1 →
  main m = None →
  let '(r, w', t) := django_execution_runner H manage_py_path test_ids args w in
  r = Ok tt ∧
  sys_argv w' = sys_argv w1 ∧
  stderr w' = stderr w1 ++
    ["Error during Django test execution: module 'manage' has no attribute 'main'"] ∧
  t = [EvSpecFromFile "manage" manage_py_path; EvExecModule].
Proof.
  intros Hreach Hmain.
  rewrite (execution_runner_reaching _ _ _ _ _ _ _ Hreach), Hmain. done.
Qed.

Lemma execution_missing_main_swallowed_witness :
  reaches_main no_main_host "/proj/manage.py" sample_world (mkModule None)
    (execution_load_world no_main_host "/proj/manage.py" sample_world) ∧
  (django_execution_runner no_main_host "/proj/manage.py" ["app.T.test_a"] []
     sample_world).1.1 = Ok tt ∧
  sys_argv (django_execution_runner no_main_host "/proj/manage.py"
              ["app.T.test_a"] [] sample_world).1.2
  = ["execution.py"; "--udiscovery"].
Proof.
  split; [apply sample_reaches_main|].
  pose proof (execution_missing_main_swallowed no_main_host "/proj/manage.py"
                ["app.T.test_a"] [] sample_world _ _
                (sample_reaches_main _ None _) eq_refl) as Hrun.
  destruct (django_execution_runner _ _ _ _ _) as [[r w'] t].
  destruct Hrun as (Hr & Hargv & _). split; [exact Hr | exact Hargv].
Defined.

(** X11: when the runner reaches the nested call and [main] returns,
    execution returns normally and writes nothing of its own to standard
    error: the world is the one [main] left, with [sys.argv] restored. *)
Theorem execution_main_returns
    H manage_py_path test_ids args w m w1 f w2 :
  reaches_main H manage_py_path w m w1 →
  main m = Some f →
  f (execution_main_world H manage_py_path test_ids args w1) = (Ok tt, w2) →
  django_execution_runner H manage_py_path test_ids args w
  = (Ok tt, set_sys_argv (sys_argv w1) w2,
     [EvSpecFromFile "manage" manage_py_path; EvExecModule;
      EvMain (execution_argv manage_py_path args test_ids)]).
Proof.
  intros Hreach Hmain Hf.
  rewrite (execution_runner_reaching _ _ _ _ _ _ _ Hreach), Hmain, Hf.
  reflexivity.
Qed.

Lemma execution_main_returns_witness :
  reaches_main quiet_host "/proj/manage.py" sample_world
    (mkModule (Some (λ w, (Ok tt, w))))
    (execution_load_world quiet_host "/proj/manage.py" sample_world) ∧
  (django_execution_runner quiet_host "/proj/manage.py" ["app.T.test_a"] []
     sample_world).1.1 = Ok tt ∧
  stderr (django_execution_runner quiet_host "/proj/manage.py"
            ["app.T.test_a"] [] sample_world).1.2 = [].
Proof.
  split; [apply sample_reaches_main|].
  rewrite (execution_main_returns quiet_host "/proj/manage.py"
             ["app.T.test_a"] [] sample_world _ _ (λ w, (Ok tt, w)) _
             (sample_reaches_main _ _ _) eq_refl eq_refl).
  split; reflexivity.
Defined.

(** X12: when the runner reaches the nested call and [main] raises
    something that is neither a [SystemExit] nor an [Exception] (a
    [KeyboardInterrupt], say), execution raises it to the caller as it is,
    with [sys.argv] restored and nothing written to standard error. *)
Theorem execution_main_interrupt_propagates
    H manage_py_path test_ids args w m w1 f e w2 :
  reaches_main H manage_py_path w m w1 →
  main m = Some f →
  f (execution_main_world H manage_py_path test_ids args w1) = (Raise e, w2) →
  isinstance e SystemExit = false →
  isinstance e Exception = false →
  django_execution_runner H manage_py_path test_ids args w
  = (Raise e, set_sys_argv (sys_argv w1) w2,
     [EvSpecFromFile "manage" manage_py_path; EvExecModule;
      EvMain (execution_argv manage_py_path args test_ids)]).
Proof.
  intros Hreach Hmain Hf Hexit He.
  rewrite (execution_runner_reaching _ _ _ _ _ _ _ Hreach), Hmain, Hf.
  cbn. rewrite Hexit, He. reflexivity.
Qed.

Lemma execution_main_interrupt_propagates_witness :
  reaches_main interrupted_main_host "/proj/manage.py" sample_world
    (mkModule (Some (λ w, (Raise (Exn KeyboardInterrupt "" None), w))))
    (execution_load_world interrupted_main_host "/proj/manage.py"
       sample_world) ∧
  isinstance (Exn KeyboardInterrupt "" None) SystemExit = false ∧
  isinstance (Exn KeyboardInterrupt "" None) Exception = false ∧
  (django_execution_runner interrupted_main_host "/proj/manage.py"
     ["app.T.test_a"] [] sample_world).1.1
  = Raise (Exn KeyboardInterrupt "" None) ∧
  sys_argv (django_execution_runner interrupted_main_host "/proj/manage.py"
              ["app.T.test_a"] [] sample_world).1.2
  = ["execution.py"; "--udiscovery"].
Proof.
  split; [apply sample_reaches_main|].
  split; [reflexivity|]. split; [reflexivity|].
  rewrite (execution_main_interrupt_propagates interrupted_main_host
             "/proj/manage.py" ["app.T.test_a"] [] sample_world _ _
             (λ w, (Raise (Exn KeyboardInterrupt "" None), w)) _ _
             (sample_reaches_main _ _ _) eq_refl eq_refl eq_refl eq_refl).
  split; reflexivity.
Defined.



(** X14: the errors of discovery can be told apart.  An [Exception]
    raised by discovery is of one of three kinds: the [VSCodeUnittestError]
    for a missing path, without context, when the check answered [False];
    the exception the check itself raised, as it is; in both of these
    nothing was changed.  Or, the check passed, a [VSCodeUnittestError]
    that has the [Exception] raised inside the [try] as its context and
    quotes it in its message; then the adapter's directory has already been
    put at the front of [sys.path]. *)
Theorem discovery_errors_classified H manage_py_path args w e :
  (django_discovery_runner H manage_py_path args w).1.1 = Raise e →
  isinstance e Exception = true →
  (path_exists H manage_py_path = Ok false ∧
   e = Exn VSCodeUnittestError
           "Error running Django, manage.py path does not exist." None ∧
   (django_discovery_runner H manage_py_path args w).1.2 = w) ∨
  (path_exists H manage_py_path = Raise e ∧
   (django_discovery_runner H manage_py_path args w).1.2 = w) ∨
  (path_exists H manage_py_path = Ok true ∧
   ∃ e0,
     (discovery_try_body H manage_py_path args w).1.1 = Raise e0 ∧
     isinstance e0 Exception = true ∧
     e = Exn VSCodeUnittestError
             ("Error during Django discovery: " +:+ str e0) (Some e0) ∧
     sys_path (django_discovery_runner H manage_py_path args w).1.2
     = script_dir H :: sys_path w).
Proof.
  destruct (path_exists H manage_py_path) as [[|]|e1] eqn:Hex.
  - rewrite discovery_runner_run, discovery_try_body_run by done. cbn zeta.
    destruct (subprocess_run H _ _) as [p|e0]; [discriminate|]. cbn.
    destruct (isinstance e0 Exception) eqn:He0.
    + intros [= <-] _. right; right. split; [done|]. by exists e0.
    + intros [= <-] He. congruence.
  - rewrite discovery_runner_checked, Hex. intros [= <-] _. left. done.
  - rewrite discovery_runner_checked, Hex. intros [= <-] _. right; left. done.
Qed.

Lemma discovery_errors_classified_witness :
  (django_discovery_runner no_interpreter_host "/proj/manage.py" []
     sample_world).1.1
  = Raise (Exn VSCodeUnittestError
               "Error during Django discovery: No such file"
               (Some (Exn (UserClass "OSError" Exception) "No such file" None))) ∧
  isinstance (Exn VSCodeUnittestError
                  "Error during Django discovery: No such file"
                  (Some (Exn (UserClass "OSError" Exception) "No such file" None)))
    Exception = true ∧
  sys_path (django_discovery_runner no_interpreter_host "/proj/manage.py" []
              sample_world).1.2
  = ["/ext/python_files/unittestadapter"; "/ext/python_files"].
Proof.
  split; [reflexivity|]. split; [reflexivity|].
  destruct (discovery_errors_classified no_interpreter_host "/proj/manage.py"
              [] sample_world _ eq_refl eq_refl)
    as [(Hmiss & _) | [(Hraise & _) | (_ & e0 & _ & _ & _ & Hpath)]].
  - discriminate Hmiss.
  - discriminate Hraise.
  - exact Hpath.
Defined.
